(** * RecSim overview notebook: the agent factory and the train/eval script

    Source: [recsim/colab/RecSim_Overview.ipynb].

    The notebook is glue code around three library modules
    ([interest_evolution], [full_slate_q_agent], [runner_lib]) and numpy.
    Its code cells are embedded here as computations in a small
    state-and-exception monad.  Everything the libraries do is a parameter
    (a [library]): the theorems hold for every behaviour of the imported
    code, including raising, and including writing to objects that the
    notebook handed over by reference.

    A name is looked up in the notebook namespace every time it is read,
    the names of the imported modules included: a cell run before the
    import cells stops with [NameError].  A call through a module name,
    such as [runner_lib.TrainRunner(...)], is the read of the name followed
    by one library step, a [CallFn], which stands for the attribute lookup
    on the module and the call; in the same way an attribute read or a
    method call on any object is one library step, and so is an import or
    a notebook magic.  Whatever Python itself answers to such a step (an
    [AttributeError] on an object without the attribute, say) is one of the
    behaviours of a [library].  Library code does not bind or unbind names
    of the notebook.

    [script] is the whole notebook, [notebook] its cells from the [def] on.
    The cells are run top to bottom, and an uncaught exception ends the run
    (as "Run all" does).

    The runners receive the closure [create_agent] as a value.  When and how
    often they invoke it is library behaviour and happens inside a library
    call; the body of [create_agent] is studied on its own, for every
    session, environment and library. *)

From stdpp Require Import base numbers option list gmap strings fin_maps.

(** ** Values *)

(** Addresses of the dictionaries that the notebook itself creates. *)
Definition loc := positive.

(** Functions defined by a [def] in the notebook. *)
Inductive closure : Type :=
| CreateAgent.

(** Python values as far as the notebook handles them.  Objects that belong
    to the libraries (environments, spaces, sessions, summary writers,
    agents, runners) are opaque handles. *)
Inductive value : Type :=
| VNone
| VBool (b : bool)
| VInt (n : Z)
| VStr (s : string)
| VDict (l : loc)
| VFun (f : closure)
| VLib (o : N).

Abbreviation dict := (gmap string value).
Abbreviation heap_t := (gmap loc (gmap string value)).

(** A dict display [{k1: v1, ..., kn: vn}]: the items are inserted from left
    to right, a later item overriding an earlier one with the same key. *)
Definition dict_literal (items : list (string * value)) : dict :=
  foldl (fun d kv => <[kv.1 := kv.2]> d) ∅ items.
Arguments dict_literal : simpl never.

(** Scalars: the values that hold no reference to another object. *)
Definition is_scalar (v : value) : bool :=
  match v with
  | VNone | VBool _ | VInt _ | VStr _ => true
  | VDict _ | VFun _ | VLib _ => false
  end.

(** ** Library calls *)

(** The library entry points the notebook calls by name. *)
Inductive lib_fn : Type :=
| NpRandomSeed        (* np.random.seed *)
| CreateEnvironment   (* interest_evolution.create_environment *)
| TrainRunner         (* runner_lib.TrainRunner *)
| EvalRunner          (* runner_lib.EvalRunner *)
| FullSlateQAgent.    (* full_slate_q_agent.FullSlateQAgent *)

(** What the notebook asks of library code: a call with positional and
    keyword arguments, a method call on an object, an attribute read on
    one, the import of a module ([import m]) or of a name from a module
    ([from m import x]), the execution of a line of shell or of a notebook
    magic ([!...], [%...]). *)
Inductive call : Type :=
| CallFn (f : lib_fn) (args : list value) (kw : dict)
| CallMethod (self : value) (m : string) (args : list value) (kw : dict)
| GetAttr (obj : value) (a : string)
| Import (m : string)
| ImportFrom (m : string) (x : string)
| Magic (line : string).

Inductive exn : Type :=
| NameError (x : string)
| TypeError (msg : string)
| LibError (e : N).

Inductive outcome (A : Type) : Type :=
| Ok (a : A)
| Raise (e : exn).
Arguments Ok {A} a.
Arguments Raise {A} e.

(** The imported code.  A call sees the notebook's dictionaries (it may have
    been handed references to them) and the libraries' own state [W]; it
    returns or raises, and leaves both possibly changed. *)
Definition library (W : Type) : Type :=
  call -> heap_t -> W -> outcome value * heap_t * W.

(** ** Machine state and trace *)

(** The steps of the notebook's own code, as an observer sees them: a name
    bound in the notebook namespace, a dictionary created, a call into the
    libraries (with the dictionaries as they were when the call was made,
    how the call ended, and the dictionaries as the call left them). *)
Inductive step : Type :=
| SBind (x : string) (v : value)
| SAlloc (l : loc) (d : dict)
| SCall (c : call) (h : heap_t) (r : outcome value) (h' : heap_t).

Record state (W : Type) : Type := State {
  globals : gmap string value;
  heap : heap_t;
  lib_state : W;
  trace : list step
}.
Arguments State {W} _ _ _ _.
Arguments globals {W} _.
Arguments heap {W} _.
Arguments lib_state {W} _.
Arguments trace {W} _.

Definition init {W : Type} (w : W) : state W := State ∅ ∅ w [].

(** ** The monad *)

Definition M (W A : Type) : Type := state W -> outcome A * state W.

Definition ret {W A} (a : A) : M W A := fun s => (Ok a, s).

Definition raise {W A} (e : exn) : M W A := fun s => (Raise e, s).

Definition bind {W A B} (m : M W A) (k : A -> M W B) : M W B :=
  fun s =>
    match m s with
    | (Ok a, s') => k a s'
    | (Raise e, s') => (Raise e, s')
    end.

Declare Scope py_scope.
Delimit Scope py_scope with py.
Notation "x <- m ;; k" := (bind m (fun x => k))
  (at level 100, m at next level, right associativity) : py_scope.
Notation "m ;; k" := (bind m (fun _ => k))
  (at level 100, right associativity) : py_scope.
Local Open Scope py_scope.

(** [x = v] at the top level of a cell. *)
Definition store {W} (x : string) (v : value) : M W unit :=
  fun s =>
    (Ok tt, State (<[x := v]> (globals s)) (heap s) (lib_state s)
               (trace s ++ [SBind x v])).

(** A read of the global name [x]. *)
Definition load {W} (x : string) : M W value :=
  fun s =>
    match globals s !! x with
    | Some v => (Ok v, s)
    | None => (Raise (NameError x), s)
    end.

(** Evaluation of a dict display whose items are already evaluated. *)
Definition new_dict {W} (d : dict) : M W value :=
  fun s =>
    let l := fresh (dom (heap s)) in
    (Ok (VDict l), State (globals s) (<[l := d]> (heap s)) (lib_state s)
                      (trace s ++ [SAlloc l d])).

(** The items of [v] for a [**v] at a call site. *)
Definition unpack {W} (v : value) : M W dict :=
  fun s =>
    match v with
    | VDict l =>
        match heap s !! l with
        | Some d => (Ok d, s)
        | None => (Raise (TypeError "argument after ** must be a mapping"), s)
        end
    | _ => (Raise (TypeError "argument after ** must be a mapping"), s)
    end.

Section Notebook.
Context {W : Type} (L : library W).

(** A call into the libraries. *)
Definition extern (c : call) : M W value :=
  fun s =>
    match L c (heap s) (lib_state s) with
    | (r, h', w') =>
        (r, State (globals s) h' w' (trace s ++ [SCall c (heap s) r h']))
    end.

(** ** The agent factory

<<
def create_agent(sess, environment, eval_mode, summary_writer=None):
  kwargs = {
      'observation_space': environment.observation_space,
      'action_space': environment.action_space,
      'summary_writer': summary_writer,
      'eval_mode': eval_mode,
  }
  return full_slate_q_agent.FullSlateQAgent(sess, **kwargs)
>>
    The global name [full_slate_q_agent] is read at each call, when the
    [return] statement is reached. *)
Definition create_agent
    (sess environment eval_mode summary_writer : value) : M W value :=
  obs <- extern (GetAttr environment "observation_space") ;;
  act <- extern (GetAttr environment "action_space") ;;
  kwargs <- new_dict (dict_literal
                        [("observation_space", obs);
                         ("action_space", act);
                         ("summary_writer", summary_writer);
                         ("eval_mode", eval_mode)]) ;;
  _ <- load "full_slate_q_agent" ;;
  kw <- unpack kwargs ;;
  extern (CallFn FullSlateQAgent [sess] kw).

(** The parameter list of a [def]: names in order, with the default of each
    parameter that has one. *)
Definition create_agent_params : list (string * option value) :=
  [("sess", None); ("environment", None); ("eval_mode", None);
   ("summary_writer", Some VNone)].

(** Python's binding of the arguments of a call to the parameters of a
    [def]: positional arguments fill the parameters from the left; a keyword
    must name a parameter not already filled; a parameter left unfilled
    takes its default, and it is an error when it has none. *)
Fixpoint bind_positional (ps : list (string * option value))
    (args : list value) : option dict :=
  match args, ps with
  | [], _ => Some ∅
  | a :: args', (p, _) :: ps' => <[p := a]> <$> bind_positional ps' args'
  | _ :: _, [] => None
  end.

Definition bind_args (ps : list (string * option value))
    (args : list value) (kw : dict) : option (list value) :=
  pos ← bind_positional ps args;
  if decide (map_Forall (fun k _ => k ∈ ps.*1 ∧ pos !! k = None) kw)
  then mapM (fun p => match (pos ∪ kw) !! p.1 with
                      | Some v => Some v
                      | None => p.2
                      end) ps
  else None.

(** A call of the closure [create_agent] with arbitrary arguments. *)
Definition call_create_agent (args : list value) (kw : dict) : M W value :=
  match bind_args create_agent_params args kw with
  | Some [sess; environment; eval_mode; summary_writer] =>
      create_agent sess environment eval_mode summary_writer
  | _ => raise (TypeError "create_agent: arguments do not match parameters")
  end.

(** ** The cells of the script *)

(**
<<
!pip install --upgrade --no-cache-dir recsim
!pip install -q tf-nightly-2.0-preview
%load_ext tensorboard
>>
*)
Definition cell_install : M W unit :=
  extern (Magic "!pip install --upgrade --no-cache-dir recsim") ;;
  extern (Magic "!pip install -q tf-nightly-2.0-preview") ;;
  extern (Magic "%load_ext tensorboard") ;;
  ret tt.

(**
<<
import numpy as np
import tensorflow as tf
>>
*)
Definition cell_import_generics : M W unit :=
  m <- extern (Import "numpy") ;;
  store "np" m ;;
  m <- extern (Import "tensorflow") ;;
  store "tf" m.

(**
<<
from recsim.environments import interest_evolution
from recsim.agents import full_slate_q_agent
from recsim.simulator import runner_lib
>>
*)
Definition cell_import_recsim : M W unit :=
  m <- extern (ImportFrom "recsim.environments" "interest_evolution") ;;
  store "interest_evolution" m ;;
  m <- extern (ImportFrom "recsim.agents" "full_slate_q_agent") ;;
  store "full_slate_q_agent" m ;;
  m <- extern (ImportFrom "recsim.simulator" "runner_lib") ;;
  store "runner_lib" m.

(** The cell holding the [def]: it binds the name [create_agent]. *)
Definition cell_create_agent : M W unit :=
  store "create_agent" (VFun CreateAgent).

(**
<<
seed = 0
np.random.seed(seed)
env_config = {
  'num_candidates': 10,
  'slate_size': 2,
  'resample_documents': True,
  'seed': seed,
  }
>>
*)
Definition cell_config : M W unit :=
  store "seed" (VInt 0) ;;
  _ <- load "np" ;;
  seed <- load "seed" ;;
  extern (CallFn NpRandomSeed [seed] ∅) ;;
  seed <- load "seed" ;;
  d <- new_dict (dict_literal
                   [("num_candidates", VInt 10);
                    ("slate_size", VInt 2);
                    ("resample_documents", VBool true);
                    ("seed", seed)]) ;;
  store "env_config" d.

(**
<<
tmp_base_dir = '/tmp/recsim/'
runner = runner_lib.TrainRunner(
    base_dir=tmp_base_dir,
    create_agent_fn=create_agent,
    env=interest_evolution.create_environment(env_config),
    episode_log_file="",
    max_training_steps=50,
    num_iterations=10)
runner.run_experiment()
>>
    The callee of a call is evaluated first, then its arguments from left
    to right, then the call is made. *)
Definition cell_train : M W unit :=
  store "tmp_base_dir" (VStr "/tmp/recsim/") ;;
  _ <- load "runner_lib" ;;
  base_dir <- load "tmp_base_dir" ;;
  create_agent_fn <- load "create_agent" ;;
  _ <- load "interest_evolution" ;;
  env_config <- load "env_config" ;;
  env <- extern (CallFn CreateEnvironment [env_config] ∅) ;;
  r <- extern (CallFn TrainRunner []
                 (dict_literal
                    [("base_dir", base_dir);
                     ("create_agent_fn", create_agent_fn);
                     ("env", env);
                     ("episode_log_file", VStr "");
                     ("max_training_steps", VInt 50);
                     ("num_iterations", VInt 10)])) ;;
  store "runner" r ;;
  runner <- load "runner" ;;
  extern (CallMethod runner "run_experiment" [] ∅) ;;
  ret tt.

(**
<<
  runner = runner_lib.EvalRunner(
      base_dir=tmp_base_dir,
      create_agent_fn=create_agent,
      env=interest_evolution.create_environment(env_config),
      max_eval_episodes=5,
      test_mode=True)
  runner.run_experiment()
>>
    (The cell is indented as a whole; the notebook front end removes the
    common indentation before the code is run.) *)
Definition cell_eval : M W unit :=
  _ <- load "runner_lib" ;;
  base_dir <- load "tmp_base_dir" ;;
  create_agent_fn <- load "create_agent" ;;
  _ <- load "interest_evolution" ;;
  env_config <- load "env_config" ;;
  env <- extern (CallFn CreateEnvironment [env_config] ∅) ;;
  r <- extern (CallFn EvalRunner []
                 (dict_literal
                    [("base_dir", base_dir);
                     ("create_agent_fn", create_agent_fn);
                     ("env", env);
                     ("max_eval_episodes", VInt 5);
                     ("test_mode", VBool true)])) ;;
  store "runner" r ;;
  runner <- load "runner" ;;
  extern (CallMethod runner "run_experiment" [] ∅) ;;
  ret tt.

(**
<<
%tensorboard --logdir=/tmp/recsim/
>>
*)
Definition cell_tensorboard : M W unit :=
  extern (Magic "%tensorboard --logdir=/tmp/recsim/") ;;
  ret tt.

(** The code cells from the [def] on, in the order of the notebook. *)
Definition notebook : M W unit :=
  cell_create_agent ;; cell_config ;; cell_train ;; cell_eval.

(** All the code cells of the notebook, in order. *)
Definition script : M W unit :=
  cell_install ;; cell_import_generics ;; cell_import_recsim ;;
  notebook ;; cell_tensorboard.

End Notebook.

(** ** Observing a run *)

(** The dictionary that the configuration cell displays. *)
Definition env_config_items : dict :=
  dict_literal
    [("num_candidates", VInt 10); ("slate_size", VInt 2);
     ("resample_documents", VBool true); ("seed", VInt 0)].


(** Whether a name is not bound in a namespace. *)
Definition unbound (g : dict) (x : string) : bool :=
  match g !! x with
  | Some _ => false
  | None => true
  end.



(** The names the import cells bind. *)
Definition module_names : list string :=
  ["np"; "tf"; "interest_evolution"; "full_slate_q_agent"; "runner_lib"].

(** What kind of step a step is, without the values involved. *)
Inductive label : Type :=
| LBind (x : string)
| LAlloc
| LCall (f : lib_fn)
| LMethod (m : string)
| LAttr (a : string)
| LImport (m : string)
| LMagic (line : string).

Definition label_of (st : step) : label :=
  match st with
  | SBind x _ => LBind x
  | SAlloc _ _ => LAlloc
  | SCall (CallFn f _ _) _ _ _ => LCall f
  | SCall (CallMethod _ m _ _) _ _ _ => LMethod m
  | SCall (GetAttr _ a) _ _ _ => LAttr a
  | SCall (Import m) _ _ _ => LImport m
  | SCall (ImportFrom m x) _ _ _ => LImport (m +:+ "." +:+ x)
  | SCall (Magic line) _ _ _ => LMagic line
  end.

(** The steps of the cells from the [def] on, in program order. *)
Definition notebook_flow : list label :=
  [LBind "create_agent";
   LBind "seed"; LCall NpRandomSeed; LAlloc; LBind "env_config";
   LBind "tmp_base_dir"; LCall CreateEnvironment; LCall TrainRunner;
   LBind "runner"; LMethod "run_experiment";
   LCall CreateEnvironment; LCall EvalRunner;
   LBind "runner"; LMethod "run_experiment"].

(** The steps of the whole notebook in program order. *)
Definition script_flow : list label :=
  [LMagic "!pip install --upgrade --no-cache-dir recsim";
   LMagic "!pip install -q tf-nightly-2.0-preview";
   LMagic "%load_ext tensorboard";
   LImport "numpy"; LBind "np"; LImport "tensorflow"; LBind "tf";
   LImport "recsim.environments.interest_evolution";
   LBind "interest_evolution";
   LImport "recsim.agents.full_slate_q_agent"; LBind "full_slate_q_agent";
   LImport "recsim.simulator.runner_lib"; LBind "runner_lib"]
  ++ notebook_flow
  ++ [LMagic "%tensorboard --logdir=/tmp/recsim/"].


(** A step that is not a call that raised. *)
Definition returned (st : step) : Prop :=
  match st with
  | SCall _ _ (Raise _) _ => False
  | _ => True
  end.

(** No library call of the trace raised. *)
Definition no_raise (tr : list step) : Prop :=
  ∀ i st, tr !! i = Some st → returned st.

(** The attribute reads of a trace: attribute name and what the read
    gave. *)
Definition attr_reads (tr : list step) : list (string * outcome value) :=
  omap (fun st => match st with
                  | SCall (GetAttr _ a) _ r _ => Some (a, r)
                  | _ => None
                  end) tr.

(** What the reads of the attribute [a] gave, in a trace. *)
Definition reads_of (a : string) (tr : list step) : list (outcome value) :=
  omap (fun st => match st with
                  | SCall (GetAttr _ a') _ r _ =>
                      if decide (a' = a) then Some r else None
                  | _ => None
                  end) tr.

(** The agent constructor calls of a trace, with their arguments. *)
Definition ctor_calls (tr : list step) : list (list value * dict) :=
  omap (fun st => match st with
                  | SCall (CallFn FullSlateQAgent args kw) _ _ _ =>
                      Some (args, kw)
                  | _ => None
                  end) tr.

(** The library calls of a run left the dictionary at [l] with items [d]
    whenever they found it so. *)
Definition calls_keep (l : loc) (d : dict) (tr : list step) : Prop :=
  ∀ c h r h', SCall c h r h' ∈ tr → h !! l = Some d → h' !! l = Some d.



(** ** Sample libraries *)

(** A library that answers every request with a new handle and touches
    nothing of the notebook's. *)
Definition quiet : library N :=
  fun _ h n => (Ok (VLib n), h, N.succ n).

(** A library whose state is a countdown [n]: the next [n] requests return
    a handle and the one after them raises; it touches nothing of the
    notebook's. *)
Definition failing_at : library nat :=
  fun _ h n =>
    match n with
    | O => (Raise (LibError 0), h, O)
    | S n' => (Ok (VLib (N.of_nat n)), h, n')
    end.

(** A namespace as the import cells leave it: the five module names bound
    to library objects. *)
Definition kernel : gmap string value :=
  dict_literal [("np", VLib 1000); ("tf", VLib 1001);
                ("interest_evolution", VLib 1002);
                ("full_slate_q_agent", VLib 1003);
                ("runner_lib", VLib 1004)].

(** * Proofs *)

(** ** Running the monad, one primitive at a time *)

Section Exec.
Context {W : Type} (L : library W).

Lemma bind_assoc {A B C} (m : M W A) (k1 : A -> M W B) (k2 : B -> M W C) s :
  bind (bind m k1) k2 s = bind m (fun x => bind (k1 x) k2) s.
Proof. unfold bind. destruct (m s) as [[a|e] s']; reflexivity. Qed.

Lemma bind_ret {A B} (a : A) (k : A -> M W B) s : bind (ret a) k s = k a s.
Proof. reflexivity. Qed.

Lemma bind_store {A} x v (k : unit -> M W A) g h w t :
  bind (store x v) k (State g h w t) =
  k tt (State (<[x := v]> g) h w (t ++ [SBind x v])).
Proof. reflexivity. Qed.



Lemma bind_load_cases {A} x (k : value -> M W A) g h w t :
  bind (load x) k (State g h w t) =
  match g !! x with
  | Some v => k v (State g h w t)
  | None => (Raise (NameError x), State g h w t)
  end.
Proof. unfold bind, load. cbn [globals]. destruct (g !! x); reflexivity. Qed.

Lemma bind_new_dict {A} d (k : value -> M W A) g h w t :
  bind (new_dict d) k (State g h w t) =
  k (VDict (fresh (dom h)))
    (State g (<[fresh (dom h) := d]> h) w (t ++ [SAlloc (fresh (dom h)) d])).
Proof. reflexivity. Qed.

Lemma bind_unpack {A} l d (k : dict -> M W A) g h w t :
  h !! l = Some d ->
  bind (unpack (VDict l)) k (State g h w t) = k d (State g h w t).
Proof. intros E. unfold bind, unpack. cbn [heap]. rewrite E. reflexivity. Qed.

Lemma extern_eq c g h w t r h' w' :
  L c h w = (r, h', w') ->
  extern L c (State g h w t) = (r, State g h' w' (t ++ [SCall c h r h'])).
Proof.
  intros E. unfold extern. cbn [heap lib_state globals trace].
  rewrite E. reflexivity.
Qed.

Lemma bind_extern_ok {A} c (k : value -> M W A) g h w t v h' w' :
  L c h w = (Ok v, h', w') ->
  bind (extern L c) k (State g h w t) =
  k v (State g h' w' (t ++ [SCall c h (Ok v) h'])).
Proof.
  intros E. unfold bind. rewrite (extern_eq _ _ _ _ _ _ _ _ E). reflexivity.
Qed.

Lemma bind_extern_raise {A} c (k : value -> M W A) g h w t e h' w' :
  L c h w = (Raise e, h', w') ->
  bind (extern L c) k (State g h w t) =
  (Raise e, State g h' w' (t ++ [SCall c h (Raise e) h'])).
Proof.
  intros E. unfold bind. rewrite (extern_eq _ _ _ _ _ _ _ _ E). reflexivity.
Qed.

End Exec.

(** A name bound by an earlier [store] is found by [load]. *)
Ltac lookup_globals :=
  repeat (rewrite lookup_insert_ne by done); apply lookup_insert_eq.

(** The value of a key in a dict display that is written out. *)
Ltac lookup_literal :=
  unfold dict_literal; cbn [foldl fst snd];
  repeat (rewrite lookup_insert_ne by done); apply lookup_insert_eq.

(** The read of a name: bound by an earlier assignment, or known from the
    context to be bound or not; else the goal splits in two, on whether the
    name is bound. *)
Ltac exec_load :=
  match goal with
  | |- context [bind (load ?x) _ (State _ _ _ _)] =>
      rewrite bind_load_cases;
      repeat (rewrite lookup_insert_ne by done);
      first
        [ rewrite lookup_insert_eq
        | match goal with
          | E : ?g !! x = _ |- context [?g !! x] => rewrite E
          end
        | match goal with
          | |- context [?g !! x] =>
              let E := fresh "E" in destruct (g !! x) as [?gv|] eqn:E
          end ];
      cbn beta iota
  end.

(** One step of a computation applied to an explicit state.  A library call
    whose answer is not yet known splits the goal in two, on whether the
    call returns or raises. *)
Ltac exec_step :=
  first
    [ rewrite bind_assoc
    | rewrite bind_ret
    | rewrite bind_store
    | rewrite bind_new_dict
    | exec_load
    | erewrite bind_unpack by apply lookup_insert_eq
    | match goal with
      | E : ?L ?cc ?hh ?ww = (Ok _, _, _)
        |- context [bind (extern ?L ?cc) _ (State _ ?hh ?ww _)] =>
          rewrite (bind_extern_ok _ _ _ _ _ _ _ _ _ _ E)
      | E : ?L ?cc ?hh ?ww = (Raise _, _, _)
        |- context [bind (extern ?L ?cc) _ (State _ ?hh ?ww _)] =>
          rewrite (bind_extern_raise _ _ _ _ _ _ _ _ _ _ E)
      | E : ?L ?cc ?hh ?ww = _
        |- context [extern ?L ?cc (State _ ?hh ?ww _)] =>
          rewrite (extern_eq _ _ _ _ _ _ _ _ _ E)
      | |- context [bind (extern ?L ?cc) _ (State _ ?hh ?ww _)] =>
          let E := fresh "E" in
          destruct (L cc hh ww) as [[[?v|?e] ?h] ?w] eqn:E;
          [ rewrite (bind_extern_ok _ _ _ _ _ _ _ _ _ _ E)
          | rewrite (bind_extern_raise _ _ _ _ _ _ _ _ _ _ E) ]
      | |- context [extern ?L ?cc (State _ ?hh ?ww _)] =>
          let E := fresh "E" in
          destruct (L cc hh ww) as [[?r ?h] ?w] eqn:E;
          rewrite (extern_eq _ _ _ _ _ _ _ _ _ E)
      end ];
  cbn beta.

Ltac exec := repeat exec_step; cbn [app]; unfold ret.

(** Run the cells from an explicit state, along every way the library may
    answer. *)
Ltac run_notebook :=
  match goal with
  | |- context [notebook ?L (State ?g ?h ?w [])] =>
      let r := fresh "r" in
      let s := fresh "s" in
      let Hrun := fresh "Hrun" in
      destruct (notebook L (State g h w [])) as [r s] eqn:Hrun;
      revert Hrun;
      unfold notebook, cell_create_agent, cell_config, cell_train, cell_eval;
      exec; intros [= <- <-]; cbn [fst snd trace globals heap lib_state]
  end.

(** The same for the whole notebook. *)
Ltac run_script :=
  match goal with
  | |- context [script ?L (State ?g ?h ?w [])] =>
      let r := fresh "r" in
      let s := fresh "s" in
      let Hrun := fresh "Hrun" in
      destruct (script L (State g h w [])) as [r s] eqn:Hrun;
      revert Hrun;
      unfold script, cell_install, cell_import_generics, cell_import_recsim,
        notebook, cell_create_agent, cell_config, cell_train, cell_eval,
        cell_tensorboard;
      exec; unfold store; intros [= <- <-];
      cbn [fst snd trace globals heap lib_state app]
  end.

(** The same for every run of the body of [create_agent] in the goal. *)
Ltac run_create_agent :=
  repeat match goal with
         | |- context [create_agent ?L ?s ?e ?m ?sw (State ?g ?h ?w ?t)] =>
             let r := fresh "r" in
             let st := fresh "s" in
             let Hrun := fresh "Hrun" in
             destruct (create_agent L s e m sw (State g h w t))
               as [r st] eqn:Hrun;
             revert Hrun; unfold create_agent at 1; exec; intros [= <- <-]
         end;
  cbn [fst snd trace globals heap lib_state].

(** The cases of [tr !! i = Some st] for a trace [tr] that is written
    out. *)
Ltac trace_cases H i :=
  repeat (destruct i as [|i];
          [ cbn in H; inversion H; subst; clear H
          | cbn in H; try discriminate H ]).

(** Facts about a trace that is written out: pick the witnesses by
    unification, then compute. *)
Ltac finish :=
  repeat match goal with
         | |- _ ∧ _ => split
         | |- ∃ _, _ => eexists
         end;
  first [ reflexivity | lia | lookup_literal | done
        | left; reflexivity | right; reflexivity ].


(** ** General facts *)

Lemma dom_foldl_insert (items : list (string * value)) (d : dict) :
  dom (foldl (fun d kv => <[kv.1 := kv.2]> d) d items)
  = list_to_set items.*1 ∪ dom d.
Proof.
  revert d.
  induction items as [|[k v] items IH]; intros d;
    cbn [foldl fmap list_fmap list_to_set].
  - apply set_eq. intros x. rewrite elem_of_union, elem_of_empty. tauto.
  - rewrite IH, dom_insert_L. cbn [fst snd].
    apply set_eq. intros x. rewrite !elem_of_union. tauto.
Qed.

(** The keys of a dict display are the keys written in it. *)
Lemma dom_dict_literal items :
  dom (dict_literal items) = list_to_set items.*1.
Proof.
  unfold dict_literal. rewrite dom_foldl_insert, dom_empty_L.
  apply set_eq. intros x. rewrite elem_of_union, elem_of_empty. tauto.
Qed.

(** Three positional arguments: [summary_writer] takes its default. *)
Lemma bind_args_positional3 sess env em :
  bind_args create_agent_params [sess; env; em] ∅
  = Some [sess; env; em; VNone].
Proof. reflexivity. Qed.

(** The way the library's runner calls the factory:
    [create_agent_fn(sess, env, summary_writer=w, eval_mode=m)]. *)
Lemma bind_args_keywords sess env em sw :
  bind_args create_agent_params [sess; env]
    (dict_literal [("summary_writer", sw); ("eval_mode", em)])
  = Some [sess; env; em; sw].
Proof. reflexivity. Qed.

(** A keyword for a parameter already filled by position, an unknown
    keyword, a missing required argument and too many arguments are all
    rejected. *)
Lemma bind_args_rejects sess env em sw :
  bind_args create_agent_params [sess; env; em]
    (dict_literal [("eval_mode", em)]) = None
  ∧ bind_args create_agent_params [sess; env; em]
      (dict_literal [("writer", sw)]) = None
  ∧ bind_args create_agent_params [sess; env] ∅ = None
  ∧ bind_args create_agent_params [sess; env; em; sw; sw] ∅ = None.
Proof. repeat split. Qed.

(** The steps of a run of the cells are those of [notebook_flow], up to
    where the run stops. *)
Lemma notebook_labels {W} (L : library W) g h w :
  map label_of (trace (notebook L (State g h w [])).2)
    `prefix_of` notebook_flow.
Proof.
  run_notebook; unfold notebook_flow; cbn [map label_of];
    eexists; cbn [app]; reflexivity.
Qed.


(** The constructor calls of [create_agent] are determined by [sess],
    [eval_mode], [summary_writer], what the reads of [observation_space]
    and of [action_space] gave, and whether the global name
    [full_slate_q_agent] is bound. *)
Lemma ctor_calls_determined {W1 W2} (L1 : library W1) (L2 : library W2)
    g1 h1 w1 g2 h2 w2 sess env1 env2 em sw :
  let t1 := trace (create_agent L1 sess env1 em sw (State g1 h1 w1 [])).2 in
  let t2 := trace (create_agent L2 sess env2 em sw (State g2 h2 w2 [])).2 in
  g1 !! "full_slate_q_agent" = g2 !! "full_slate_q_agent" →
  reads_of "observation_space" t1 = reads_of "observation_space" t2 →
  reads_of "action_space" t1 = reads_of "action_space" t2 →
  ctor_calls t1 = ctor_calls t2.
Proof.
  intros t1 t2 Hg. subst t1 t2.
  destruct (g1 !! "full_slate_q_agent") as [m1|] eqn:E1,
           (g2 !! "full_slate_q_agent") as [m2|] eqn:E2;
    try discriminate Hg; clear Hg.
  all: run_create_agent.
  all: intros Ho Ha; cbn in Ho, Ha; repeat case_decide; simplify_eq;
       reflexivity.
Qed.

(** ** Two sample runs *)

(** With a library in which every call returns, the notebook runs to the
    end. *)
Example quiet_run :
  (script quiet (init 0%N)).1 = Ok tt
  ∧ map label_of (trace (script quiet (init 0%N)).2) = script_flow.
Proof. split; vm_compute; reflexivity. Qed.

(** When the construction of the training runner raises, the run ends there
    with that exception. *)
Example failing_run :
  (notebook failing_at (State kernel ∅ 2 [])).1 = Raise (LibError 0)
  ∧ map label_of (trace (notebook failing_at (State kernel ∅ 2 [])).2)
    = take 8 notebook_flow.
Proof. split; vm_compute; reflexivity. Qed.

(** In a new kernel, without the import cells, the cells from the [def] on
    stop at the first read of a module name. *)
Example no_import_run :
  (notebook quiet (init 0%N)).1 = Raise (NameError "np")
  ∧ map label_of (trace (notebook quiet (init 0%N)).2)
    = take 2 notebook_flow.
Proof. split; vm_compute; reflexivity. Qed.

(** * The claims *)

(** C1.  In every run of the cells from the [def] on, each call of
    [interest_evolution.create_environment] receives one positional
    argument and no keyword: the reference to the dictionary that the
    configuration cell built and bound to [env_config] (step 3 creates it,
    step 4 binds the name, and the name is never bound again).  There are
    two such calls, step 6 for the training runner and step 10 for the
    evaluation runner.  At the first call the dictionary holds the items it
    was built with.  The steps of the cells between its construction and a
    call never write to it: at the second call it still holds the same
    items, provided that the library calls made in between (the first
    factory call, the construction of the training runner and its
    [run_experiment]), which were handed the reference, left it so. *)
Theorem env_config_passed_unchanged {W} (L : library W) g h w
    i a k hp r hp' :
  let tr := trace (notebook L (State g h w [])).2 in
  tr !! i = Some (SCall (CallFn CreateEnvironment a k) hp r hp') →
  ∃ l,
    tr !! 3 = Some (SAlloc l env_config_items)
    ∧ tr !! 4 = Some (SBind "env_config" (VDict l))
    ∧ (∀ j x v, tr !! j = Some (SBind x v) → 4 < j → x ≠ "env_config")
    ∧ a = [VDict l] ∧ k = ∅
    ∧ (i = 6 ∨ i = 10)
    ∧ (i = 6 → hp !! l = Some env_config_items)
    ∧ (calls_keep l env_config_items (take i tr) →
       hp !! l = Some env_config_items).
Proof.
  intros tr. subst tr. run_notebook.
  all: intros Hi; trace_cases Hi i.
  all: eexists; repeat apply conj; try reflexivity.
  all: try (intros j ? ? Hj Hlt; trace_cases Hj j; first [lia | discriminate]).
  all: try (left; reflexivity).
  all: try (right; reflexivity).
  all: try (intros _; apply lookup_insert_eq).
  all: try (intros [=]).
  all: intros Hkeep.
  all: eapply Hkeep; [apply (list_elem_of_lookup_2 _ 9); reflexivity|].
  all: eapply Hkeep; [apply (list_elem_of_lookup_2 _ 7); reflexivity|].
  all: eapply Hkeep; [apply (list_elem_of_lookup_2 _ 6); reflexivity|].
  all: apply lookup_insert_eq.
Qed.

(** The second factory call of a run with the library [quiet], after the
    imports. *)
Lemma env_config_passed_unchanged_witness :
  let tr := trace (notebook quiet (State kernel ∅ 0%N [])).2 in
  tr !! 10
  = Some (SCall (CallFn CreateEnvironment [VDict 1%positive] ∅)
            {[1%positive := env_config_items]} (Ok (VLib 4))
            {[1%positive := env_config_items]})
  ∧ ∃ l,
      tr !! 3 = Some (SAlloc l env_config_items)
      ∧ tr !! 4 = Some (SBind "env_config" (VDict l))
      ∧ (∀ j x v, tr !! j = Some (SBind x v) → 4 < j → x ≠ "env_config")
      ∧ [VDict 1%positive] = [VDict l] ∧ (∅ : dict) = ∅
      ∧ (10 = 6 ∨ 10 = 10)
      ∧ (10 = 6 →
         ({[1%positive := env_config_items]} : heap_t) !! l
         = Some env_config_items)
      ∧ (calls_keep l env_config_items (take 10 tr) →
         ({[1%positive := env_config_items]} : heap_t) !! l
         = Some env_config_items).
Proof.
  split; [vm_compute; reflexivity|].
  apply (env_config_passed_unchanged quiet kernel ∅ 0%N 10
           [VDict 1%positive] ∅
           {[1%positive := env_config_items]} (Ok (VLib 4))
           {[1%positive := env_config_items]}).
  vm_compute. reflexivity.
Defined.

(** C2.  For every session, environment, [eval_mode] and [summary_writer],
    and every library, in a namespace in which the module name
    [full_slate_q_agent] is bound: when the two attribute reads
    [environment.observation_space] and [environment.action_space] return
    [obs] and [act], [create_agent] makes exactly one more call, the
    constructor [FullSlateQAgent] with the one positional argument [sess]
    and the keywords [observation_space = obs], [action_space = act],
    [summary_writer] and [eval_mode] as given, these four and no other, and
    its outcome is the outcome of that call.  Called with three arguments,
    or as the runner calls it with two positional arguments and the other
    two by keyword, it behaves as the body does with the parameters so
    bound; an omitted [summary_writer] is [None]. *)
Theorem create_agent_passes_through {W} (L : library W) g h w
    sess environment eval_mode summary_writer obs act h1 w1 h2 w2 :
  is_Some (g !! "full_slate_q_agent") →
  L (GetAttr environment "observation_space") h w = (Ok obs, h1, w1) →
  L (GetAttr environment "action_space") h1 w1 = (Ok act, h2, w2) →
  let kw := dict_literal [("observation_space", obs); ("action_space", act);
                          ("summary_writer", summary_writer);
                          ("eval_mode", eval_mode)] in
  let l := fresh (dom h2) in
  let ctor := L (CallFn FullSlateQAgent [sess] kw) (<[l := kw]> h2) w2 in
  create_agent L sess environment eval_mode summary_writer (State g h w [])
  = (ctor.1.1,
     State g ctor.1.2 ctor.2
       [SCall (GetAttr environment "observation_space") h (Ok obs) h1;
        SCall (GetAttr environment "action_space") h1 (Ok act) h2;
        SAlloc l kw;
        SCall (CallFn FullSlateQAgent [sess] kw) (<[l := kw]> h2)
          ctor.1.1 ctor.1.2])
  ∧ dom kw = list_to_set ["observation_space"; "action_space";
                          "summary_writer"; "eval_mode"]
  ∧ kw !! "observation_space" = Some obs
  ∧ kw !! "action_space" = Some act
  ∧ kw !! "summary_writer" = Some summary_writer
  ∧ kw !! "eval_mode" = Some eval_mode
  ∧ call_create_agent L [sess; environment; eval_mode] ∅ (State g h w [])
    = create_agent L sess environment eval_mode VNone (State g h w [])
  ∧ call_create_agent L [sess; environment]
      (dict_literal [("summary_writer", summary_writer);
                     ("eval_mode", eval_mode)]) (State g h w [])
    = create_agent L sess environment eval_mode summary_writer
        (State g h w []).
Proof.
  intros [m Hm] E1 E2 kw l ctor. repeat apply conj.
  - unfold create_agent. exec.
    subst ctor kw l. rewrite E. reflexivity.
  - apply dom_dict_literal.
  - subst kw. lookup_literal.
  - subst kw. lookup_literal.
  - subst kw. lookup_literal.
  - subst kw. lookup_literal.
  - unfold call_create_agent. rewrite bind_args_positional3. reflexivity.
  - unfold call_create_agent. rewrite bind_args_keywords. reflexivity.
Qed.

(** A call of [create_agent] with the library [quiet]: the two reads give
    the handles 0 and 1, the constructor gives the handle 2. *)
Lemma create_agent_passes_through_witness :
  let kw := dict_literal [("observation_space", VLib 0);
                          ("action_space", VLib 1);
                          ("summary_writer", VLib 102);
                          ("eval_mode", VBool true)] in
  is_Some (kernel !! "full_slate_q_agent")
  ∧ quiet (GetAttr (VLib 101) "observation_space") ∅ 0%N
    = (Ok (VLib 0), ∅, 1%N)
  ∧ quiet (GetAttr (VLib 101) "action_space") ∅ 1%N = (Ok (VLib 1), ∅, 2%N)
  ∧ create_agent quiet (VLib 100) (VLib 101) (VBool true) (VLib 102)
      (State kernel ∅ 0%N [])
    = (Ok (VLib 2),
       State kernel {[1%positive := kw]} 3%N
         [SCall (GetAttr (VLib 101) "observation_space") ∅ (Ok (VLib 0)) ∅;
          SCall (GetAttr (VLib 101) "action_space") ∅ (Ok (VLib 1)) ∅;
          SAlloc 1%positive kw;
          SCall (CallFn FullSlateQAgent [VLib 100] kw) {[1%positive := kw]}
            (Ok (VLib 2)) {[1%positive := kw]}])
  ∧ kw !! "summary_writer" = Some (VLib 102)
  ∧ kw !! "eval_mode" = Some (VBool true).
Proof.
  intros kw.
  destruct (create_agent_passes_through quiet kernel ∅ 0%N
              (VLib 100) (VLib 101) (VBool true) (VLib 102)
              (VLib 0) (VLib 1) ∅ 1%N ∅ 2%N
              (mk_is_Some _ (VLib 1003) eq_refl) eq_refl eq_refl)
    as (Hrun & _ & _ & _ & Hsw & Hem & _).
  repeat apply conj.
  - exact (mk_is_Some _ (VLib 1003) eq_refl).
  - reflexivity.
  - reflexivity.
  - vm_compute in Hrun |- *. exact Hrun.
  - exact Hsw.
  - exact Hem.
Defined.

(** C3.  In every run of the cells from the [def] on: a call of [runner_lib.TrainRunner] has
    no positional argument and exactly the keywords [base_dir],
    [create_agent_fn], [env], [episode_log_file], [max_training_steps] and
    [num_iterations], bound to ['/tmp/recsim/'], the closure
    [create_agent], the environment that the factory call just before
    returned, [""], 50 and 10; a call of [runner_lib.EvalRunner] has no
    positional argument and exactly the keywords [base_dir],
    [create_agent_fn], [env], [max_eval_episodes] and [test_mode], bound to
    ['/tmp/recsim/'], the closure, the environment of the factory call just
    before, 5 and [True].  A runner that has been constructed is bound to
    [runner], and the next step calls [run_experiment()] on it, without
    arguments.  A run that ends without an exception has constructed
    both.  And the cells do construct and run both: after the import cells
    (the names [np], [runner_lib] and [interest_evolution] bound), in a run
    in which no library call raises, the training runner is constructed at
    step 7 and run at step 9, the evaluation runner is constructed at step
    11 and run at step 13, and the run ends without an exception. *)
Theorem runners_constructed_and_run {W} (L : library W) g h w :
  let run := notebook L (State g h w []) in
  let tr := trace run.2 in
  (∀ i a k hp r hp',
     tr !! i = Some (SCall (CallFn TrainRunner a k) hp r hp') →
     a = []
     ∧ dom k = list_to_set ["base_dir"; "create_agent_fn"; "env";
                            "episode_log_file"; "max_training_steps";
                            "num_iterations"]
     ∧ ∃ l env hf hf',
         tr !! (i - 1)
         = Some (SCall (CallFn CreateEnvironment [VDict l] ∅) hf (Ok env) hf')
         ∧ k = dict_literal
                 [("base_dir", VStr "/tmp/recsim/");
                  ("create_agent_fn", VFun CreateAgent);
                  ("env", env);
                  ("episode_log_file", VStr "");
                  ("max_training_steps", VInt 50);
                  ("num_iterations", VInt 10)])
  ∧ (∀ i a k hp r hp',
       tr !! i = Some (SCall (CallFn EvalRunner a k) hp r hp') →
       a = []
       ∧ dom k = list_to_set ["base_dir"; "create_agent_fn"; "env";
                              "max_eval_episodes"; "test_mode"]
       ∧ ∃ l env hf hf',
           tr !! (i - 1)
           = Some (SCall (CallFn CreateEnvironment [VDict l] ∅) hf (Ok env) hf')
           ∧ k = dict_literal
                   [("base_dir", VStr "/tmp/recsim/");
                    ("create_agent_fn", VFun CreateAgent);
                    ("env", env);
                    ("max_eval_episodes", VInt 5);
                    ("test_mode", VBool true)])
  ∧ (∀ i f a k hp rv hp',
       tr !! i = Some (SCall (CallFn f a k) hp (Ok rv) hp') →
       f = TrainRunner ∨ f = EvalRunner →
       tr !! (i + 1) = Some (SBind "runner" rv)
       ∧ ∃ hm r hm',
           tr !! (i + 2)
           = Some (SCall (CallMethod rv "run_experiment" [] ∅) hm r hm'))
  ∧ (run.1 = Ok tt →
     ∃ a1 k1 hp1 rv1 hp1' a2 k2 hp2 rv2 hp2',
       tr !! 7 = Some (SCall (CallFn TrainRunner a1 k1) hp1 (Ok rv1) hp1')
       ∧ tr !! 11 = Some (SCall (CallFn EvalRunner a2 k2) hp2 (Ok rv2) hp2'))
  ∧ (is_Some (g !! "np") → is_Some (g !! "runner_lib") →
     is_Some (g !! "interest_evolution") → no_raise tr →
     run.1 = Ok tt
     ∧ length tr = 14
     ∧ ∃ k1 hp1 rv1 hp1' hm1 v1 hm1' k2 hp2 rv2 hp2' hm2 v2 hm2',
         tr !! 7 = Some (SCall (CallFn TrainRunner [] k1) hp1 (Ok rv1) hp1')
         ∧ tr !! 9
           = Some (SCall (CallMethod rv1 "run_experiment" [] ∅)
                     hm1 (Ok v1) hm1')
         ∧ tr !! 11
           = Some (SCall (CallFn EvalRunner [] k2) hp2 (Ok rv2) hp2')
         ∧ tr !! 13
           = Some (SCall (CallMethod rv2 "run_experiment" [] ∅)
                     hm2 (Ok v2) hm2')).
Proof.
  intros run tr. subst tr run. repeat apply conj.
  - run_notebook.
    all: intros i a k hp r hp' Hi; trace_cases Hi i.
    all: repeat apply conj;
         first [ reflexivity | apply dom_dict_literal | finish ].
  - run_notebook.
    all: intros i a k hp r hp' Hi; trace_cases Hi i.
    all: repeat apply conj;
         first [ reflexivity | apply dom_dict_literal | finish ].
  - run_notebook.
    all: intros i f a k hp rv hp' Hi [-> | ->]; trace_cases Hi i; finish.
  - run_notebook.
    all: intros [=]; finish.
  - run_notebook.
    all: intros [? Hnp] [? Hrl] [? Hie]; try discriminate.
    all: intros Hno.
    all: try (exfalso;
              first [ exact (Hno 2 _ eq_refl) | exact (Hno 6 _ eq_refl)
                    | exact (Hno 7 _ eq_refl) | exact (Hno 9 _ eq_refl)
                    | exact (Hno 10 _ eq_refl) | exact (Hno 11 _ eq_refl)
                    | exact (Hno 13 _ eq_refl) ]).
    all: finish.
Qed.

(** A run with the library [quiet], after the imports: no call raises, both
    runners are constructed and run. *)
Lemma runners_constructed_and_run_witness :
  let run := notebook quiet (State kernel ∅ 0%N []) in
  let tr := trace run.2 in
  no_raise tr
  ∧ run.1 = Ok tt
  ∧ length tr = 14
  ∧ ∃ k1 hp1 rv1 hp1' hm1 v1 hm1' k2 hp2 rv2 hp2' hm2 v2 hm2',
      tr !! 7 = Some (SCall (CallFn TrainRunner [] k1) hp1 (Ok rv1) hp1')
      ∧ tr !! 9
        = Some (SCall (CallMethod rv1 "run_experiment" [] ∅) hm1 (Ok v1) hm1')
      ∧ tr !! 11 = Some (SCall (CallFn EvalRunner [] k2) hp2 (Ok rv2) hp2')
      ∧ tr !! 13
        = Some (SCall (CallMethod rv2 "run_experiment" [] ∅)
                  hm2 (Ok v2) hm2').
Proof.
  intros run tr.
  assert (Hno : no_raise tr).
  { intros i st Hi.
    do 14 (destruct i as [|i];
           [vm_compute in Hi; injection Hi as <-; exact I|]).
    vm_compute in Hi. discriminate Hi. }
  split; [exact Hno|].
  destruct (runners_constructed_and_run quiet kernel ∅ 0%N)
    as (_ & _ & _ & _ & Hp).
  exact (Hp (mk_is_Some _ (VLib 1000) eq_refl)
            (mk_is_Some _ (VLib 1004) eq_refl)
            (mk_is_Some _ (VLib 1002) eq_refl) Hno).
Defined.

(** C4.  When the configuration cell completes, the name [env_config] is
    bound to a dictionary whose keys are exactly [num_candidates],
    [slate_size], [resample_documents] and [seed], bound to 10, 2, [True]
    and 0; every value in it is a scalar, none a reference to another
    object. *)
Theorem env_config_flat {W} (L : library W) (s s' : state W) :
  cell_config L s = (Ok tt, s') →
  ∃ l d,
    globals s' !! "env_config" = Some (VDict l)
    ∧ heap s' !! l = Some d
    ∧ d = env_config_items
    ∧ dom d = list_to_set ["num_candidates"; "slate_size";
                           "resample_documents"; "seed"]
    ∧ d !! "num_candidates" = Some (VInt 10)
    ∧ d !! "slate_size" = Some (VInt 2)
    ∧ d !! "resample_documents" = Some (VBool true)
    ∧ d !! "seed" = Some (VInt 0)
    ∧ (∀ k v, d !! k = Some v → is_scalar v = true).
Proof.
  destruct s as [g h w t]. unfold cell_config. exec.
  all: intros [= <-]; cbn [globals heap].
  do 2 eexists. repeat apply conj.
  - apply lookup_insert_eq.
  - apply lookup_insert_eq.
  - reflexivity.
  - apply dom_dict_literal.
  - lookup_literal.
  - lookup_literal.
  - lookup_literal.
  - lookup_literal.
  - intros k x. unfold dict_literal. cbn [foldl fst snd].
    rewrite !lookup_insert.
    repeat case_decide; try (intros [= <-]; reflexivity).
    all: try (rewrite lookup_empty; discriminate).
Qed.

(** The configuration cell run with the library [quiet], after the
    imports. *)
Lemma env_config_flat_witness :
  let s' := (cell_config quiet (State kernel ∅ 0%N [])).2 in
  cell_config quiet (State kernel ∅ 0%N []) = (Ok tt, s')
  ∧ ∃ l d,
      globals s' !! "env_config" = Some (VDict l)
      ∧ heap s' !! l = Some d
      ∧ d = env_config_items
      ∧ dom d = list_to_set ["num_candidates"; "slate_size";
                             "resample_documents"; "seed"]
      ∧ d !! "num_candidates" = Some (VInt 10)
      ∧ d !! "slate_size" = Some (VInt 2)
      ∧ d !! "resample_documents" = Some (VBool true)
      ∧ d !! "seed" = Some (VInt 0)
      ∧ (∀ k v, d !! k = Some v → is_scalar v = true).
Proof.
  intros s'.
  assert (Hrun : cell_config quiet (State kernel ∅ 0%N []) = (Ok tt, s'))
    by (vm_compute; reflexivity).
  split; [exact Hrun|].
  exact (env_config_flat quiet (State kernel ∅ 0%N []) s' Hrun).
Defined.

(** C5.  In every run of the cells from the [def] on the steps are taken
    in the order of [notebook_flow], up to where the run stops, and all of
    them when no call raises; a step is taken only when every step before it has
    returned.  So in each phase: the configuration dictionary is built
    (step 3) before the factory is called on it; a runner is constructed
    only right after a factory call that returned, with the environment
    that call returned and the closure [create_agent]; [run_experiment()]
    is called only on a runner whose construction returned, two steps
    before; and the evaluation runner is constructed only after
    [run_experiment()] of the training runner (step 9) has returned. *)
Theorem notebook_steps_in_order {W} (L : library W) g h w :
  let run := notebook L (State g h w []) in
  let tr := trace run.2 in
  map label_of tr `prefix_of` notebook_flow
  ∧ (run.1 = Ok tt → map label_of tr = notebook_flow)
  ∧ (∀ i st, tr !! i = Some st → S i < length tr → returned st)
  ∧ (∀ i f a k hp r hp',
       tr !! i = Some (SCall (CallFn f a k) hp r hp') →
       f = TrainRunner ∨ f = EvalRunner →
       k !! "create_agent_fn" = Some (VFun CreateAgent)
       ∧ ∃ l env hf hf',
           tr !! 3 = Some (SAlloc l env_config_items)
           ∧ 3 < i - 1
           ∧ tr !! (i - 1)
             = Some (SCall (CallFn CreateEnvironment [VDict l] ∅)
                       hf (Ok env) hf')
           ∧ k !! "env" = Some env)
  ∧ (∀ i rv m a k hp r hp',
       tr !! i = Some (SCall (CallMethod rv m a k) hp r hp') →
       m = "run_experiment"
       ∧ ∃ f a' k' hc hc',
           tr !! (i - 2) = Some (SCall (CallFn f a' k') hc (Ok rv) hc')
           ∧ (f = TrainRunner ∨ f = EvalRunner))
  ∧ (∀ i a k hp r hp',
       tr !! i = Some (SCall (CallFn EvalRunner a k) hp r hp') →
       ∃ rv a' k' hc hc' v ht ht',
         tr !! 7 = Some (SCall (CallFn TrainRunner a' k') hc (Ok rv) hc')
         ∧ tr !! 9
           = Some (SCall (CallMethod rv "run_experiment" [] ∅) ht (Ok v) ht')
         ∧ 9 < i).
Proof.
  intros run tr. subst tr run. repeat apply conj.
  - apply notebook_labels.
  - run_notebook.
    all: intros [=]; reflexivity.
  - run_notebook.
    all: intros i st Hi Hlen; cbn in Hlen; trace_cases Hi i;
         solve [exact I | lia].
  - run_notebook.
    all: intros i f a k hp r hp' Hi [-> | ->]; trace_cases Hi i; finish.
  - run_notebook.
    all: intros i rv m a k hp r hp' Hi; trace_cases Hi i; finish.
  - run_notebook.
    all: intros i a k hp r hp' Hi; trace_cases Hi i; finish.
Qed.

(** C6.  In every run of the cells from the [def] on, in every call of
    [create_agent] and in every run of the whole notebook: when a library
    call raises, that call is the last step, nothing is done after it (the
    dictionaries are as the call left them), and the run ends with the very
    exception the call raised.  A run ends with an exception only in this
    way, or, for the cells run without the import cells and for
    [create_agent], with the [NameError] of a read of a module name that is
    not bound; the whole notebook, which binds the module names before it
    reads them, ends with an exception only when a library call raised, and
    with that exception. *)
Theorem errors_propagate {W} (L : library W) g h w
    sess environment eval_mode summary_writer :
  let nb := notebook L (State g h w []) in
  let ca := create_agent L sess environment eval_mode summary_writer
              (State g h w []) in
  let sc := script L (State g h w []) in
  (∀ i c hp e hp',
     trace nb.2 !! i = Some (SCall c hp (Raise e) hp') →
     nb.1 = Raise e ∧ S i = length (trace nb.2) ∧ heap nb.2 = hp')
  ∧ (∀ e, nb.1 = Raise e →
          (∃ c hp hp', last (trace nb.2) = Some (SCall c hp (Raise e) hp'))
          ∨ (∃ x, e = NameError x ∧ g !! x = None ∧ x ∈ module_names))
  ∧ (∀ i c hp e hp',
       trace ca.2 !! i = Some (SCall c hp (Raise e) hp') →
       ca.1 = Raise e ∧ S i = length (trace ca.2) ∧ heap ca.2 = hp')
  ∧ (∀ e, ca.1 = Raise e →
          (∃ c hp hp', last (trace ca.2) = Some (SCall c hp (Raise e) hp'))
          ∨ (e = NameError "full_slate_q_agent"
             ∧ g !! "full_slate_q_agent" = None))
  ∧ (∀ i c hp e hp',
       trace sc.2 !! i = Some (SCall c hp (Raise e) hp') →
       sc.1 = Raise e ∧ S i = length (trace sc.2) ∧ heap sc.2 = hp')
  ∧ (∀ e, sc.1 = Raise e →
          ∃ c hp hp', last (trace sc.2) = Some (SCall c hp (Raise e) hp')).
Proof.
  intros nb ca sc. subst nb ca sc. repeat apply conj.
  - run_notebook.
    all: intros i c hp e' hp' Hi; trace_cases Hi i;
         repeat apply conj; reflexivity.
  - run_notebook.
    all: intros e' [= <-].
    all: first [ left; do 3 eexists; reflexivity
               | right; eexists; split; [reflexivity|];
                 split; [assumption|]; unfold module_names; set_solver ].
  - run_create_agent.
    all: intros i c hp e' hp' Hi; trace_cases Hi i;
         repeat apply conj; reflexivity.
  - run_create_agent.
    all: intros e' Hr; simplify_eq.
    all: first [ left; do 3 eexists; reflexivity
               | right; split; [reflexivity | done] ].
  - run_script.
    all: intros i c hp e' hp' Hi; trace_cases Hi i;
         repeat apply conj; reflexivity.
  - run_script.
    all: intros e' [= <-].
    all: do 3 eexists; reflexivity.
Qed.






(** C9.  [create_agent] reads two attributes of its environment argument,
    [observation_space] and [action_space], and uses the environment in no
    other step: every step of a call is one of these two reads, the
    creation of the keyword bundle, or the constructor call on [sess] and
    the bundle.  So for every [sess], [eval_mode] and [summary_writer]: two
    calls on environments [env1] and [env2], in any two states which agree
    on the global name [full_slate_q_agent] and with any two libraries, in
    which the reads of [observation_space] give the same for both
    environments and the reads of [action_space] give the same for both,
    make the same constructor calls, with the same positional and keyword
    arguments.  And when a library answers the reads of the two attributes
    alike for the two environments, the two calls, from the same state,
    have the same outcome and leave the same dictionaries, library state
    and namespace. *)
Theorem create_agent_env_only_through_spaces {W1 W2}
    (L1 : library W1) (L2 : library W2)
    g1 h1 w1 g2 h2 w2 sess env1 env2 eval_mode summary_writer :
  let r1 := create_agent L1 sess env1 eval_mode summary_writer
              (State g1 h1 w1 []) in
  let t1 := trace r1.2 in
  let t2 := trace (create_agent L2 sess env2 eval_mode summary_writer
                     (State g2 h2 w2 [])).2 in
  let r1' := create_agent L1 sess env2 eval_mode summary_writer
               (State g1 h1 w1 []) in
  (∀ i st, t1 !! i = Some st →
     (∃ a hp r hp',
        st = SCall (GetAttr env1 a) hp r hp'
        ∧ (a = "observation_space" ∨ a = "action_space"))
     ∨ (∃ l d, st = SAlloc l d)
     ∨ (∃ kw hp r hp', st = SCall (CallFn FullSlateQAgent [sess] kw) hp r hp'))
  ∧ (g1 !! "full_slate_q_agent" = g2 !! "full_slate_q_agent" →
     reads_of "observation_space" t1 = reads_of "observation_space" t2 →
     reads_of "action_space" t1 = reads_of "action_space" t2 →
     ctor_calls t1 = ctor_calls t2)
  ∧ ((∀ a hp wp,
        a = "observation_space" ∨ a = "action_space" →
        L1 (GetAttr env1 a) hp wp = L1 (GetAttr env2 a) hp wp) →
     r1.1 = r1'.1 ∧ heap r1.2 = heap r1'.2
     ∧ lib_state r1.2 = lib_state r1'.2 ∧ globals r1.2 = globals r1'.2
     ∧ ctor_calls t1 = ctor_calls (trace r1'.2)).
Proof.
  intros r1 t1 t2 r1'. subst t1 t2 r1 r1'. repeat apply conj.
  - run_create_agent.
    all: intros i st Hi; trace_cases Hi i.
    all: first [ left; do 4 eexists; split;
                 [reflexivity | first [left; reflexivity | right; reflexivity]]
               | right; left; do 2 eexists; reflexivity
               | right; right; do 4 eexists; reflexivity ].
  - apply ctor_calls_determined.
  - intros Hsame.
    pose proof (Hsame "observation_space" h1 w1 (or_introl eq_refl)) as Ho.
    destruct (L1 (GetAttr env1 "observation_space") h1 w1)
      as [[[obs|e] ha] wa] eqn:E1; symmetry in Ho.
    + pose proof (Hsame "action_space" ha wa (or_intror eq_refl)) as Ha.
      destruct (L1 (GetAttr env1 "action_space") ha wa)
        as [[[act|e] hb] wb] eqn:E2; symmetry in Ha.
      * run_create_agent. all: repeat apply conj; reflexivity.
      * run_create_agent. all: repeat apply conj; reflexivity.
    + run_create_agent. all: repeat apply conj; reflexivity.
Qed.

(** Two environments for which [quiet] answers the attribute reads alike,
    in the namespace the import cells leave and in one with one more name
    and a dictionary. *)
Lemma create_agent_env_only_through_spaces_witness :
  let t1 := trace (create_agent quiet (VLib 100) (VLib 101) (VBool false)
                     VNone (State kernel ∅ 0%N [])).2 in
  let t2 := trace (create_agent quiet (VLib 100) (VLib 201) (VBool false)
                     VNone
                     (State (<["seed" := VInt 0]> kernel)
                        {[1%positive := ∅]} 0%N [])).2 in
  reads_of "observation_space" t1 = [Ok (VLib 0)]
  ∧ reads_of "observation_space" t2 = [Ok (VLib 0)]
  ∧ reads_of "action_space" t1 = [Ok (VLib 1)]
  ∧ reads_of "action_space" t2 = [Ok (VLib 1)]
  ∧ ctor_calls t1 = ctor_calls t2
  ∧ ctor_calls t1
    = [([VLib 100],
        dict_literal [("observation_space", VLib 0);
                      ("action_space", VLib 1);
                      ("summary_writer", VNone);
                      ("eval_mode", VBool false)])].
Proof.
  intros t1 t2.
  assert (Ho1 : reads_of "observation_space" t1 = [Ok (VLib 0)])
    by (vm_compute; reflexivity).
  assert (Ho2 : reads_of "observation_space" t2 = [Ok (VLib 0)])
    by (vm_compute; reflexivity).
  assert (Ha1 : reads_of "action_space" t1 = [Ok (VLib 1)])
    by (vm_compute; reflexivity).
  assert (Ha2 : reads_of "action_space" t2 = [Ok (VLib 1)])
    by (vm_compute; reflexivity).
  assert (Hg : kernel !! "full_slate_q_agent"
               = <["seed" := VInt 0]> kernel !! "full_slate_q_agent")
    by (vm_compute; reflexivity).
  destruct (create_agent_env_only_through_spaces quiet quiet
              kernel ∅ 0%N (<["seed" := VInt 0]> kernel)
              {[1%positive := ∅]} 0%N
              (VLib 100) (VLib 101) (VLib 201) (VBool false) VNone)
    as (_ & Hsame & _).
  repeat apply conj.
  - exact Ho1.
  - exact Ho2.
  - exact Ha1.
  - exact Ha2.
  - exact (Hsame Hg (eq_trans Ho1 (eq_sym Ho2)) (eq_trans Ha1 (eq_sym Ha2))).
  - vm_compute. reflexivity.
Defined.

(** C10.  In a run of the cells from the [def] on that constructs both runners, both receive
    [base_dir = '/tmp/recsim/'], the value of the name [tmp_base_dir],
    which is bound once (step 5); and each receives as [env] what its own
    call of the factory returned, the training runner that of step 6, the
    evaluation runner that of step 10, a call made after the training run:
    the two are different objects whenever the factory returns a new object
    at each call. *)
Theorem same_base_dir_separate_env {W} (L : library W) g h w
    it ie a1 k1 hp1 r1 hp1' a2 k2 hp2 r2 hp2' :
  let tr := trace (notebook L (State g h w [])).2 in
  tr !! it = Some (SCall (CallFn TrainRunner a1 k1) hp1 r1 hp1') →
  tr !! ie = Some (SCall (CallFn EvalRunner a2 k2) hp2 r2 hp2') →
  k1 !! "base_dir" = Some (VStr "/tmp/recsim/")
  ∧ k2 !! "base_dir" = Some (VStr "/tmp/recsim/")
  ∧ (∀ j v, tr !! j = Some (SBind "tmp_base_dir" v) →
            j = 5 ∧ v = VStr "/tmp/recsim/")
  ∧ ∃ l env1 env2 hf1 hf1' hf2 hf2',
      tr !! 6
      = Some (SCall (CallFn CreateEnvironment [VDict l] ∅) hf1 (Ok env1) hf1')
      ∧ tr !! 10
        = Some (SCall (CallFn CreateEnvironment [VDict l] ∅)
                  hf2 (Ok env2) hf2')
      ∧ it = 7 ∧ ie = 11
      ∧ k1 !! "env" = Some env1
      ∧ k2 !! "env" = Some env2
      ∧ (env1 ≠ env2 → k2 !! "env" ≠ k1 !! "env").
Proof.
  intros tr. subst tr. run_notebook.
  all: intros Ht He; trace_cases He ie.
  all: trace_cases Ht it.
  all: repeat apply conj.
  all: try lookup_literal.
  all: try (intros j ? Hj; trace_cases Hj j; split; reflexivity).
  all: do 7 eexists; repeat apply conj; try reflexivity; try lookup_literal.
  all: intros Hne; unfold dict_literal; cbn [foldl fst snd];
       repeat first [ rewrite lookup_insert_eq
                    | rewrite lookup_insert_ne by done ];
       congruence.
Qed.

(** The two runner constructions of a run with the library [quiet], after
    the imports: the environments are the handles 1 and 4. *)
Lemma same_base_dir_separate_env_witness :
  let tr := trace (notebook quiet (State kernel ∅ 0%N [])).2 in
  let h1 : heap_t := {[1%positive := env_config_items]} in
  let k1 := dict_literal [("base_dir", VStr "/tmp/recsim/");
                          ("create_agent_fn", VFun CreateAgent);
                          ("env", VLib 1);
                          ("episode_log_file", VStr "");
                          ("max_training_steps", VInt 50);
                          ("num_iterations", VInt 10)] in
  let k2 := dict_literal [("base_dir", VStr "/tmp/recsim/");
                          ("create_agent_fn", VFun CreateAgent);
                          ("env", VLib 4);
                          ("max_eval_episodes", VInt 5);
                          ("test_mode", VBool true)] in
  tr !! 7 = Some (SCall (CallFn TrainRunner [] k1) h1 (Ok (VLib 2)) h1)
  ∧ tr !! 11 = Some (SCall (CallFn EvalRunner [] k2) h1 (Ok (VLib 5)) h1)
  ∧ k1 !! "base_dir" = Some (VStr "/tmp/recsim/")
  ∧ k2 !! "base_dir" = Some (VStr "/tmp/recsim/")
  ∧ k1 !! "env" = Some (VLib 1)
  ∧ k2 !! "env" = Some (VLib 4)
  ∧ k2 !! "env" ≠ k1 !! "env".
Proof.
  intros tr h1 k1 k2.
  assert (Ht : tr !! 7
               = Some (SCall (CallFn TrainRunner [] k1) h1 (Ok (VLib 2)) h1))
    by (vm_compute; reflexivity).
  assert (He : tr !! 11
               = Some (SCall (CallFn EvalRunner [] k2) h1 (Ok (VLib 5)) h1))
    by (vm_compute; reflexivity).
  pose proof (same_base_dir_separate_env quiet kernel ∅ 0%N 7 11
                [] k1 h1 (Ok (VLib 2)) h1 [] k2 h1 (Ok (VLib 5)) h1) as H.
  subst tr. cbv zeta in H.
  destruct (H Ht He)
    as (Hb1 & Hb2 & _ & l & env1 & env2 & hf1 & hf1' & hf2 & hf2'
        & H6 & H10 & _ & _ & He1 & He2 & Hne).
  vm_compute in H6. vm_compute in H10.
  injection H6 as _ _ <- _. injection H10 as _ _ <- _.
  repeat apply conj.
  - exact Ht.
  - exact He.
  - exact Hb1.
  - exact Hb2.
  - exact He1.
  - exact He2.
  - apply Hne. discriminate.
Defined.

(** * Further properties of the code *)

(** ** Binding of arguments to parameters *)

(** There may be no more positional arguments than parameters. *)
Lemma bind_positional_None ps args :
  bind_positional ps args = None ↔ length ps < length args.
Proof.
  revert ps. induction args as [|a args IH]; intros [|[p d] ps]; cbn.
  - split; [discriminate | lia].
  - split; [discriminate | lia].
  - split; [lia | reflexivity].
  - rewrite fmap_None, IH. lia.
Qed.

(** The [i]-th parameter is filled by the [i]-th positional argument, when
    there is one. *)
Lemma bind_positional_lookup ps args pos :
  NoDup ps.*1 →
  bind_positional ps args = Some pos →
  ∀ i k, ps.*1 !! i = Some k → pos !! k = args !! i.
Proof.
  revert ps pos.
  induction args as [|a args IH]; intros [|[p d] ps] pos Hnd Hpos i k Hk;
    cbn in *; simplify_eq.
  - apply lookup_empty.
  - apply fmap_Some in Hpos as (pos' & Hpos' & ->).
    apply NoDup_cons in Hnd as [Hp Hnd].
    destruct i as [|i]; cbn in *; simplify_eq.
    + apply lookup_insert_eq.
    + rewrite lookup_insert_ne; [eauto|].
      intros <-. apply Hp. eapply list_elem_of_lookup_2. exact Hk.
Qed.

(** When a call is rejected: too many positional arguments, a keyword that
    names no parameter, a keyword for a parameter already filled by
    position, or a parameter without default left unfilled. *)
Lemma bind_args_None ps args kw :
  NoDup ps.*1 →
  bind_args ps args kw = None ↔
    length ps < length args
    ∨ (∃ k, is_Some (kw !! k) ∧ k ∉ ps.*1)
    ∨ (∃ i k, i < length args ∧ ps.*1 !! i = Some k ∧ is_Some (kw !! k))
    ∨ (∃ i k, ps !! i = Some (k, None) ∧ length args ≤ i ∧ kw !! k = None).
Proof.
  intros Hnd. unfold bind_args. split.
  - destruct (bind_positional ps args) as [pos|] eqn:Hpos; cbn.
    + case_decide as HF.
      * intros HN.
        apply mapM_None_1, Exists_exists in HN as ([k d] & Hin & Hf).
        cbn in Hf. destruct ((pos ∪ kw) !! k) eqn:HU; [discriminate|].
        subst d. apply lookup_union_None in HU as [Hpk Hkw].
        apply list_elem_of_lookup in Hin as [i Hi].
        do 3 right. exists i, k. repeat split; [done| |done].
        apply lookup_ge_None.
        rewrite <- (bind_positional_lookup ps args pos Hnd Hpos i k); [done|].
        rewrite list_lookup_fmap, Hi. reflexivity.
      * intros _.
        apply map_not_Forall in HF as (k & v & Hkv & Hn); [|apply _].
        destruct (decide (k ∈ ps.*1)) as [Hin|Hin].
        -- right; right; left.
           apply list_elem_of_lookup in Hin as [i Hi]. exists i, k.
           repeat split; [|done|eauto].
           apply lookup_lt_is_Some.
           rewrite <- (bind_positional_lookup ps args pos Hnd Hpos i k Hi).
           destruct (pos !! k) eqn:E; [eauto|].
           exfalso. apply Hn. split; [|done].
           eapply list_elem_of_lookup_2. exact Hi.
        -- right; left. exists k. eauto.
    + intros _. left. by apply bind_positional_None.
  - intros [Hlen | [(k & [v Hkv] & Hk) | [(i & k & Hi & Hk & [v Hkv])
                  | (i & k & Hi & Hlen & Hkw)]]].
    + apply bind_positional_None in Hlen. rewrite Hlen. reflexivity.
    + destruct (bind_positional ps args) as [pos|]; [cbn|done].
      case_decide as HF; [|done].
      destruct (HF k v Hkv) as [Hin _]. done.
    + destruct (bind_positional ps args) as [pos|] eqn:Hpos; [cbn|done].
      case_decide as HF; [|done].
      destruct (HF k v Hkv) as [_ Hnone].
      rewrite (bind_positional_lookup ps args pos Hnd Hpos i k Hk) in Hnone.
      apply lookup_ge_None in Hnone. lia.
    + destruct (bind_positional ps args) as [pos|] eqn:Hpos; [cbn|done].
      case_decide as HF; [|done].
      apply mapM_None_2, Exists_exists. exists (k, None).
      split; [eapply list_elem_of_lookup_2; exact Hi|]. cbn.
      assert (Hpk : pos !! k = None).
      { rewrite (bind_positional_lookup ps args pos Hnd Hpos i k).
        - by apply lookup_ge_None.
        - rewrite list_lookup_fmap, Hi. reflexivity. }
      rewrite (lookup_union_None_2 pos kw k Hpk Hkw). reflexivity.
Qed.

(** When a call is accepted: each parameter takes the positional argument
    at its place, else the keyword of its name, else its default. *)
Lemma bind_args_Some ps args kw vs :
  NoDup ps.*1 →
  bind_args ps args kw = Some vs →
  length vs = length ps
  ∧ ∀ i k d, ps !! i = Some (k, d) →
      vs !! i = match args !! i with
                | Some a => Some a
                | None => match kw !! k with
                          | Some v => Some v
                          | None => d
                          end
                end.
Proof.
  intros Hnd. unfold bind_args.
  destruct (bind_positional ps args) as [pos|] eqn:Hpos; [cbn|done].
  case_decide as HF; [|done]. intros Hvs. split.
  - symmetry. eapply length_mapM. exact Hvs.
  - intros i k d Hi.
    apply mapM_Some_1 in Hvs.
    destruct (Forall2_lookup_l _ _ _ _ _ Hvs Hi) as (y & Hy & Hf).
    cbn in Hf. rewrite Hy.
    assert (Hpk : pos !! k = args !! i).
    { apply (bind_positional_lookup ps args pos Hnd Hpos).
      rewrite list_lookup_fmap, Hi. reflexivity. }
    destruct (args !! i) as [a|] eqn:Ha.
    + rewrite (lookup_union_Some_l pos kw k a Hpk) in Hf. done.
    + rewrite (lookup_union_r pos kw k Hpk) in Hf.
      destruct (kw !! k); done.
Qed.

(** ** Calls of [create_agent] *)

Lemma create_agent_params_NoDup : NoDup create_agent_params.*1.
Proof. apply (bool_decide_unpack _). vm_compute. exact I. Qed.

(** A run of the body of [create_agent] takes at least one step. *)
Lemma create_agent_steps {W} (L : library W) sess env em sw s :
  trace (create_agent L sess env em sw s).2 ≠ trace s.
Proof.
  destruct s as [g h w t]. run_create_agent.
  all: intros Heq; apply (f_equal length) in Heq;
       rewrite !length_app in Heq; cbn in Heq; lia.
Qed.

(** X1.  A call of [create_agent] raises the [TypeError] of a rejected
    call, before taking any step (no attribute is read, no dictionary
    created, no library code run), exactly in these cases: more than four
    positional arguments; a keyword that is not one of [sess],
    [environment], [eval_mode], [summary_writer]; a keyword for a parameter
    that a positional argument already fills; or one of [sess],
    [environment], [eval_mode] given neither by position nor by keyword. *)
Theorem call_create_agent_type_error {W} (L : library W) args kw s :
  call_create_agent L args kw s
  = (Raise (TypeError "create_agent: arguments do not match parameters"), s)
  ↔ 4 < length args
    ∨ (∃ k, is_Some (kw !! k)
            ∧ k ∉ ["sess"; "environment"; "eval_mode"; "summary_writer"])
    ∨ (∃ i k, i < length args
              ∧ ["sess"; "environment"; "eval_mode"; "summary_writer"] !! i
                = Some k
              ∧ is_Some (kw !! k))
    ∨ (∃ i k, i < 3 ∧ length args ≤ i
              ∧ ["sess"; "environment"; "eval_mode"; "summary_writer"] !! i
                = Some k
              ∧ kw !! k = None).
Proof.
  pose proof (bind_args_None create_agent_params args kw
                create_agent_params_NoDup) as HN.
  unfold call_create_agent. split.
  - destruct (bind_args create_agent_params args kw) as [vs|] eqn:Hb.
    + destruct (bind_args_Some _ _ _ _ create_agent_params_NoDup Hb)
        as [Hlen _].
      destruct vs as [|v0 [|v1 [|v2 [|v3 [|v4 vs]]]]]; try discriminate Hlen.
      intros Heq. exfalso.
      apply (create_agent_steps L v0 v1 v2 v3 s). rewrite Heq. reflexivity.
    + intros _. destruct HN as [HN _].
      destruct (HN eq_refl) as [H | [H | [H | (i & k & Hi & Hlen & Hkw)]]].
      * left. exact H.
      * right; left. exact H.
      * right; right; left. exact H.
      * do 3 right. exists i, k.
        destruct i as [|[|[|[|i]]]]; cbn in Hi; simplify_eq;
          repeat split; first [lia | done].
  - intros Hc.
    assert (Hb : bind_args create_agent_params args kw = None).
    { apply HN.
      destruct Hc as [H | [H | [H | (i & k & Hi & Hlen & Hk & Hkw)]]].
      - left. exact H.
      - right; left. exact H.
      - right; right; left. exact H.
      - do 3 right. exists i, k.
        destruct i as [|[|[|i]]]; cbn in Hk; simplify_eq;
          repeat split; first [lia | done]. }
    rewrite Hb. reflexivity.
Qed.

(** X2.  A call of [create_agent] that is not rejected runs the body with
    each parameter bound to the positional argument at its place if there
    is one, else to the keyword of its name; [summary_writer] alone falls
    back to [None], the three other parameters are always given. *)
Theorem call_create_agent_binding {W} (L : library W) args kw s :
  call_create_agent L args kw s
  ≠ (Raise (TypeError "create_agent: arguments do not match parameters"), s) →
  call_create_agent L args kw s
  = create_agent L
      (default (default VNone (kw !! "sess")) (args !! 0))
      (default (default VNone (kw !! "environment")) (args !! 1))
      (default (default VNone (kw !! "eval_mode")) (args !! 2))
      (default (default VNone (kw !! "summary_writer")) (args !! 3)) s
  ∧ (is_Some (args !! 0) ∨ is_Some (kw !! "sess"))
  ∧ (is_Some (args !! 1) ∨ is_Some (kw !! "environment"))
  ∧ (is_Some (args !! 2) ∨ is_Some (kw !! "eval_mode")).
Proof.
  unfold call_create_agent.
  destruct (bind_args create_agent_params args kw) as [vs|] eqn:Hb;
    [|intros H; exfalso; apply H; reflexivity].
  intros _.
  destruct (bind_args_Some _ _ _ _ create_agent_params_NoDup Hb)
    as [Hlen Hvs].
  destruct vs as [|v0 [|v1 [|v2 [|v3 [|v4 vs]]]]]; try discriminate Hlen.
  pose proof (Hvs 0 _ _ eq_refl) as H0.
  pose proof (Hvs 1 _ _ eq_refl) as H1.
  pose proof (Hvs 2 _ _ eq_refl) as H2.
  pose proof (Hvs 3 _ _ eq_refl) as H3.
  cbn in H0, H1, H2, H3.
  destruct (args !! 0), (kw !! "sess"); simplify_eq.
  all: destruct (args !! 1), (kw !! "environment"); simplify_eq.
  all: destruct (args !! 2), (kw !! "eval_mode"); simplify_eq.
  all: destruct (args !! 3), (kw !! "summary_writer"); simplify_eq.
  all: cbn; repeat split; eauto.
Qed.

(** Two positional arguments and [eval_mode] by keyword, after the
    imports. *)
Lemma call_create_agent_binding_witness :
  let args := [VLib 100; VLib 101] in
  let kw := dict_literal [("eval_mode", VBool true)] in
  call_create_agent quiet args kw (State kernel ∅ 0%N [])
  ≠ (Raise (TypeError "create_agent: arguments do not match parameters"),
     State kernel ∅ 0%N [])
  ∧ call_create_agent quiet args kw (State kernel ∅ 0%N [])
    = create_agent quiet (VLib 100) (VLib 101) (VBool true) VNone (State kernel ∅ 0%N []).
Proof.
  intros args kw.
  assert (Hne : call_create_agent quiet args kw (State kernel ∅ 0%N [])
                ≠ (Raise (TypeError
                            "create_agent: arguments do not match parameters"),
                   State kernel ∅ 0%N []))
    by (intros H; vm_compute in H; discriminate H).
  split; [exact Hne|].
  destruct (call_create_agent_binding quiet args kw (State kernel ∅ 0%N []) Hne)
    as [Heq _].
  exact Heq.
Defined.

(** X8.  [create_agent] reads attributes of its [environment] argument
    only, [observation_space] first.  When that read raises, [action_space]
    is not read; and the constructor is called, once, exactly when both
    reads have returned and the name [full_slate_q_agent] is bound, with
    what the reads returned. *)
Theorem create_agent_reads_before_constructing {W} (L : library W) g h w
    sess environment eval_mode summary_writer :
  let tr := trace (create_agent L sess environment eval_mode summary_writer
                     (State g h w [])).2 in
  (∀ i obj a hp r hp',
     tr !! i = Some (SCall (GetAttr obj a) hp r hp') → obj = environment)
  ∧ ((∃ e, attr_reads tr = [("observation_space", Raise e)]
           ∧ ctor_calls tr = [])
     ∨ (∃ obs e, attr_reads tr = [("observation_space", Ok obs);
                                  ("action_space", Raise e)]
                 ∧ ctor_calls tr = [])
     ∨ (∃ obs act,
          attr_reads tr = [("observation_space", Ok obs);
                           ("action_space", Ok act)]
          ∧ ctor_calls tr
            = if unbound g "full_slate_q_agent" then []
              else [([sess],
                     dict_literal [("observation_space", obs);
                                   ("action_space", act);
                                   ("summary_writer", summary_writer);
                                   ("eval_mode", eval_mode)])])).
Proof.
  intros tr. subst tr. split.
  - run_create_agent.
    all: intros i obj a hp r' hp' Hi; trace_cases Hi i; reflexivity.
  - unfold unbound. run_create_agent.
    all: first [ do 2 right; do 2 eexists; split; reflexivity
               | right; left; do 2 eexists; split; reflexivity
               | left; eexists; split; reflexivity ].
Qed.

(** ** The cells run one at a time *)






(** X6.  After the imports, when [np.random.seed] returns, the
    configuration cell completes and leaves [env_config] bound to a
    dictionary at a new location: no dictionary that existed before is
    overwritten, a dictionary an earlier run of the cell created stays as
    it is, and only the names [seed] and [env_config] are bound. *)
Theorem cell_config_fresh_dict {W} (L : library W) g h w t v h1 w1 :
  is_Some (g !! "np") →
  L (CallFn NpRandomSeed [VInt 0] ∅) h w = (Ok v, h1, w1) →
  let r := cell_config L (State g h w t) in
  r.1 = Ok tt
  ∧ ∃ l,
      globals r.2 !! "env_config" = Some (VDict l)
      ∧ (l ∉ dom h1)
      ∧ heap r.2 !! l = Some env_config_items
      ∧ (∀ l', l' ≠ l → heap r.2 !! l' = h1 !! l')
      ∧ (∀ x, x ≠ "env_config" → x ≠ "seed" → globals r.2 !! x = g !! x).
Proof.
  intros [m Hm] E r. subst r. unfold cell_config. exec.
  unfold store. cbn [fst snd globals heap]. split; [reflexivity|].
  exists (fresh (dom h1)). repeat apply conj.
  - apply lookup_insert_eq.
  - apply is_fresh.
  - apply lookup_insert_eq.
  - intros l' Hl'. apply lookup_insert_ne. congruence.
  - intros x H1 H2. rewrite !lookup_insert_ne by congruence. reflexivity.
Qed.

(** The configuration cell run a second time: the first dictionary is
    still there. *)
Lemma cell_config_fresh_dict_witness :
  let h : heap_t := {[1%positive := env_config_items]} in
  let g : gmap string value := <["env_config" := VDict 1%positive]> kernel in
  let r := cell_config quiet (State g h 0%N []) in
  is_Some (g !! "np")
  ∧ quiet (CallFn NpRandomSeed [VInt 0] ∅) h 0%N = (Ok (VLib 0), h, 1%N)
  ∧ r.1 = Ok tt
  ∧ globals r.2 !! "env_config" = Some (VDict 2%positive)
  ∧ heap r.2 !! 1%positive = Some env_config_items.
Proof.
  intros h g r.
  assert (Hnp : is_Some (g !! "np"))
    by (exists (VLib 1000); vm_compute; reflexivity).
  pose proof (cell_config_fresh_dict quiet g h 0%N [] (VLib 0) h 1%N
                Hnp eq_refl) as H.
  cbv zeta in H. destruct H as (Hok & l & Hl & _ & _ & Hold & _).
  repeat apply conj.
  - exact Hnp.
  - reflexivity.
  - exact Hok.
  - vm_compute. reflexivity.
  - refine (eq_trans (Hold 1%positive _) _).
    + intros Heq. subst l. vm_compute in Hl. discriminate Hl.
    + reflexivity.
Defined.

(** X7.  After the imports, when [np.random.seed] raises, the
    configuration cell ends with that exception; [seed] is bound (to 0),
    [env_config] is not bound by the cell and no dictionary is created. *)
Theorem cell_config_seed_failure {W} (L : library W) g h w t e h1 w1 :
  is_Some (g !! "np") →
  L (CallFn NpRandomSeed [VInt 0] ∅) h w = (Raise e, h1, w1) →
  let r := cell_config L (State g h w t) in
  r.1 = Raise e
  ∧ globals r.2 !! "seed" = Some (VInt 0)
  ∧ globals r.2 !! "env_config" = g !! "env_config"
  ∧ heap r.2 = h1
  ∧ trace r.2
    = t ++ [SBind "seed" (VInt 0);
            SCall (CallFn NpRandomSeed [VInt 0] ∅) h (Raise e) h1].
Proof.
  intros [m Hm] E r. subst r. unfold cell_config. exec.
  cbn [fst snd globals heap trace]. repeat apply conj.
  - reflexivity.
  - apply lookup_insert_eq.
  - apply lookup_insert_ne. done.
  - reflexivity.
  - rewrite <- app_assoc. reflexivity.
Qed.

(** The configuration cell with a library whose first call raises. *)
Lemma cell_config_seed_failure_witness :
  let r := cell_config failing_at (State kernel ∅ 0 []) in
  is_Some (kernel !! "np")
  ∧ failing_at (CallFn NpRandomSeed [VInt 0] ∅) ∅ 0
    = (Raise (LibError 0), ∅, 0)
  ∧ r.1 = Raise (LibError 0)
  ∧ globals r.2 !! "seed" = Some (VInt 0)
  ∧ globals r.2 !! "env_config" = None.
Proof.
  intros r. subst r.
  assert (Hnp : is_Some (kernel !! "np"))
    by (exists (VLib 1000); vm_compute; reflexivity).
  pose proof (cell_config_seed_failure failing_at kernel ∅ 0 []
                (LibError 0) ∅ 0 Hnp eq_refl) as H.
  cbv zeta in H. destruct H as (H1 & H2 & H3 & _).
  repeat apply conj.
  - exact Hnp.
  - reflexivity.
  - exact H1.
  - exact H2.
  - rewrite H3. vm_compute. reflexivity.
Defined.

(** X9.  Once the [def] cell and the configuration cell have completed,
    after the imports, the evaluation cell run after the training cell,
    however the training cell ended, calls the environment factory on the
    very dictionary the configuration cell created: the training cell does
    not rebind [env_config]. *)
Theorem cell_eval_after_train {W} (L : library W) g h w s1 r s2 :
  is_Some (g !! "runner_lib") →
  is_Some (g !! "interest_evolution") →
  (cell_create_agent ;; cell_config L) (State g h w []) = (Ok tt, s1) →
  cell_train L s1 = (r, s2) →
  ∃ l hp r' hp',
    globals s1 !! "env_config" = Some (VDict l)
    ∧ globals s2 !! "env_config" = Some (VDict l)
    ∧ heap s1 !! l = Some env_config_items
    ∧ trace (cell_eval L s2).2 !! length (trace s2)
      = Some (SCall (CallFn CreateEnvironment [VDict l] ∅) hp r' hp').
Proof.
  intros [m1 Hm1] [m2 Hm2].
  unfold cell_create_agent, cell_config. exec.
  all: unfold store; intros [= <-].
  unfold cell_train. exec.
  all: intros [= <- <-].
  all: unfold cell_eval; exec.
  all: cbn [fst snd trace globals heap length].
  all: do 4 eexists; repeat apply conj;
       [ lookup_globals | lookup_globals | apply lookup_insert_eq
       | reflexivity ].
Qed.

(** The training run raises; the evaluation cell, run after it, calls the
    factory on the same configuration. *)
Lemma cell_eval_after_train_witness :
  let s1 := ((cell_create_agent ;; cell_config failing_at)
               (State kernel ∅ 3 [])).2 in
  let s2 := (cell_train failing_at s1).2 in
  (cell_create_agent ;; cell_config failing_at) (State kernel ∅ 3 [])
  = (Ok tt, s1)
  ∧ cell_train failing_at s1 = (Raise (LibError 0), s2)
  ∧ globals s2 !! "runner" = Some (VLib 1)
  ∧ ∃ l hp r' hp',
      globals s1 !! "env_config" = Some (VDict l)
      ∧ globals s2 !! "env_config" = Some (VDict l)
      ∧ heap s1 !! l = Some env_config_items
      ∧ trace (cell_eval failing_at s2).2 !! length (trace s2)
        = Some (SCall (CallFn CreateEnvironment [VDict l] ∅) hp r' hp').
Proof.
  assert (H1 : (cell_create_agent ;; cell_config failing_at)
                 (State kernel ∅ 3 [])
               = (Ok tt, ((cell_create_agent ;; cell_config failing_at)
                            (State kernel ∅ 3 [])).2))
    by (vm_compute; reflexivity).
  assert (H2 : cell_train failing_at
                 ((cell_create_agent ;; cell_config failing_at)
                    (State kernel ∅ 3 [])).2
               = (Raise (LibError 0),
                  (cell_train failing_at
                     ((cell_create_agent ;; cell_config failing_at)
                        (State kernel ∅ 3 [])).2).2))
    by (vm_compute; reflexivity).
  cbv zeta. repeat apply conj.
  - exact H1.
  - exact H2.
  - vm_compute. reflexivity.
  - exact (cell_eval_after_train failing_at kernel ∅ 3 _ _ _
             (mk_is_Some _ (VLib 1004) eq_refl)
             (mk_is_Some _ (VLib 1002) eq_refl) H1 H2).
Defined.
